(** * VoiceAgent backend: the [/upload] request handler

    A shallow embedding of [src/backend/main.py].  The handler
    [upload_file] validates an uploaded audio file, sends it to a
    speech-to-text provider, asks a language model for a one-sentence
    summary of the transcript, sends the summary to a text-to-speech
    provider and returns the synthesized audio.

    The three providers are the module-level names the handler calls
    ([aai.Transcriber().transcribe], [llm.invoke] and
    [elevenlabs.text_to_speech.convert]); they are gathered in a record
    [Providers] so that statements can quantify over them.  Every provider
    call is recorded in a call log threaded through the handler, and a
    Python exception is a value of type [exception].  The diagnostic
    [print] calls of the handler write to standard output only; they
    touch neither the response nor a provider and are left out.

    The handler is given twice: on the bytes that [file.read()] returns
    ([Handler.upload_file]), and on the upload as an object with a read
    position in a heap shared by the requests ([Object.upload_file]);
    [object_upload_file_view] relates the two. *)

From Stdlib Require Import String Ascii List Bool Arith Lia.
From Stdlib Require Import Init.Byte.
Import ListNotations.

Local Open Scope list_scope.
Local Open Scope string_scope.

(** ** Python values *)

Definition bytes := list byte.

(** [b"..."] literals. *)
Definition bytes_lit (s : string) : bytes := list_byte_of_string s.

(** [str.startswith]. *)
Definition startswith (s p : string) : bool := String.prefix p s.

(** [x in [a, b, ...]] on strings. *)
Definition str_in (s : string) (l : list string) : bool :=
  existsb (String.eqb s) l.

(** Truth value of a string: the empty string is false. *)
Definition str_truthy (s : string) : bool := negb (s =? "").

(** What an f-string writes for [{x}] when [x] is [None] or a [str]. *)
Definition fmt (x : option string) : string :=
  match x with
  | None => "None"
  | Some s => s
  end.

(** The character written [\n] in the source. *)
Definition nl : string := String (ascii_of_nat 10) EmptyString.

(** [sub in s] for strings, as a proposition. *)
Definition contains (s sub : string) : Prop :=
  exists pre post, s = pre ++ sub ++ post.

(** ** Exceptions

    The handler distinguishes [HTTPException] from every other
    [Exception]; of the latter it uses [str(e)] (and prints the name of
    its class).  Classes that derive from [BaseException] only, which no
    clause of the handler catches, are not part of the model. *)

Inductive exception : Type :=
| HTTPException (status_code : nat) (detail : string)
| Exception (type_name : string) (str : string).

(** ** Data of the request and of the providers *)

Record UploadFile : Type := {
  filename : option string;
  content_type : option string;
  size : option nat;
  contents : bytes       (* what [await file.read()] returns *)
}.

Inductive SpeechModel : Type := best | nano | universal.

Record TranscriptionConfig : Type := {
  speech_model : SpeechModel;
  language_code : string;
  punctuate : bool;
  format_text : bool
}.

Inductive TranscriptStatus : Type := queued | processing | completed | error.

Definition status_eqb (x y : TranscriptStatus) : bool :=
  match x, y with
  | queued, queued | processing, processing
  | completed, completed | error, error => true
  | _, _ => false
  end.

Record Transcript : Type := {
  t_status : TranscriptStatus;
  t_id : option string;
  t_text : option string;
  t_error : option string
}.

(** The iterator of audio chunks that the synthesis provider returns:
    it yields finitely many chunks and then stops, or raises. *)
Inductive generator : Type :=
| StopIteration
| Yield (chunk : bytes) (rest : generator)
| Raise (e : exception).

Fixpoint iter (chunks : list bytes) : generator :=
  match chunks with
  | [] => StopIteration
  | c :: cs => Yield c (iter cs)
  end.

(** [b"".join(g)]. *)
Fixpoint join (g : generator) : exception + bytes :=
  match g with
  | StopIteration => inr []
  | Yield c rest =>
      match join rest with
      | inl e => inl e
      | inr bs => inr (c ++ bs)%list
      end
  | Raise e => inl e
  end.

(** [StreamingResponse(content, media_type=...)]; the status code is the
    default one of the class, 200. *)
Record StreamingResponse : Type := {
  status_code : nat;
  media_type : string;
  body : bytes
}.

Definition mkStreamingResponse (content : bytes) (mt : string)
  : StreamingResponse :=
  {| status_code := 200; media_type := mt; body := content |}.

(** ** Providers

    [llm] is read as a module-level name.  The source file imports
    [OllamaLLM] but contains no binding for [llm], so the name is bound
    only when something else installs it: [None] is the unbound name. *)

Record Providers : Type := {
  transcribe : bytes -> TranscriptionConfig -> exception + Transcript;
  llm : option (string -> exception + string);
  convert : string -> string -> string -> string -> exception + generator
}.

(** ** The call log *)

Inductive event : Type :=
| Transcribe (data : bytes) (config : TranscriptionConfig)
| Invoke (prompt : string)
| Convert (text voice_id model_id output_format : string).

Definition trace := list event.

Definition is_invoke (e : event) : bool :=
  match e with Invoke _ => true | _ => false end.
Definition is_convert (e : event) : bool :=
  match e with Convert _ _ _ _ => true | _ => false end.

(** ** The monad of the handler: a call log and exceptions *)

Definition M (A : Type) : Type := trace -> (exception + A) * trace.

Definition ret {A} (a : A) : M A := fun tr => (inr a, tr).

Definition raise {A} (e : exception) : M A := fun tr => (inl e, tr).

Definition bind {A B} (m : M A) (k : A -> M B) : M B :=
  fun tr =>
    match m tr with
    | (inl e, tr') => (inl e, tr')
    | (inr a, tr') => k a tr'
    end.

(** [try: m  except ...: h e]. *)
Definition try_except {A} (m : M A) (h : exception -> M A) : M A :=
  fun tr =>
    match m tr with
    | (inl e, tr') => h e tr'
    | (inr a, tr') => (inr a, tr')
    end.

(** A provider call: it is logged, then it returns or raises. *)
Definition call {A} (ev : event) (r : exception + A) : M A :=
  fun tr => (r, (tr ++ [ev])%list).

(** A statement [if c: raise e]. *)
Definition raise_if (c : bool) (e : exception) : M unit :=
  if c then raise e else ret tt.

Declare Scope handler_scope.
Delimit Scope handler_scope with handler.
Notation "x <- m ;; k" := (bind m (fun x => k))
  (at level 61, m at next level, right associativity) : handler_scope.
Notation "m ;; k" := (bind m (fun _ => k))
  (at level 61, right associativity) : handler_scope.

(** ** The handler *)

Module Handler.

Local Open Scope handler_scope.

(** The condition of the media-type check (line 40). *)
Definition content_type_rejected (ct : option string) : bool :=
  match ct with
  | None => false
  | Some s =>
      str_truthy s
      && negb (startswith s "audio/" || str_in s ["application/octet-stream"])
  end.

Definition unsupported_detail (ct : option string) : string :=
  "File type '" ++ fmt ct
  ++ "' may not be supported. Try uploading a .wav, .mp3, or .webm file.".

Definition empty_detail : string := "Uploaded file is empty".

Definition config : TranscriptionConfig :=
  {| speech_model := best;
     language_code := "en";
     punctuate := true;
     format_text := true |}.

Definition summarize_instruction : string :=
  "Summarize this in one very short sentence:" ++ nl ++ nl.

Definition voice_id : string := "JBFqnCBsd6RMkjVDRZzb".
Definition model_id : string := "eleven_multilingual_v2".
Definition output_format : string := "mp3_44100_128".

(** [llm.invoke(prompt)]: looking up the unbound name raises [NameError]
    before anything is called. *)
Definition llm_invoke (env : Providers) (prompt : string) : M string :=
  match llm env with
  | None => raise (Exception "NameError" "name 'llm' is not defined")
  | Some f => call (Invoke prompt) (f prompt)
  end.

(** The body of the [try] block (lines 34 to 82). *)
Definition upload_file_body (env : Providers) (file : UploadFile)
  : M StreamingResponse :=
  raise_if (content_type_rejected (content_type file))
    (HTTPException 400 (unsupported_detail (content_type file))) ;;
  file_bytes <- ret (contents file) ;;
  raise_if (List.length file_bytes =? 0)%nat (HTTPException 400 empty_detail) ;;
  transcript <- call (Transcribe file_bytes config)
                     (transcribe env file_bytes config) ;;
  raise_if (status_eqb (t_status transcript) error)
    (HTTPException 500 ("Transcription failed: " ++ fmt (t_error transcript))) ;;
  let transcript_text := t_text transcript in
  let prompt := summarize_instruction ++ fmt transcript_text in
  response <- llm_invoke env prompt ;;
  audio_generator <- call (Convert response voice_id model_id output_format)
                          (convert env response voice_id model_id output_format) ;;
  audio <- (fun tr => (join audio_generator, tr)) ;;
  ret (mkStreamingResponse audio "audio/mpeg").

(** The [except] clauses (lines 84 to 89). *)
Definition upload_file_handler (e : exception) : M StreamingResponse :=
  match e with
  | HTTPException _ _ => raise e
  | Exception _ msg =>
      raise (HTTPException 500 ("Internal server error: " ++ msg))
  end.

Definition upload_file (env : Providers) (file : UploadFile)
  : M StreamingResponse :=
  try_except (upload_file_body env file) upload_file_handler.

End Handler.

Import Handler.

(** ** Stubs used in the statements *)

Module Stubs.

(** A language model that returns the prompt it is given. *)
Definition echo_llm (prompt : string) : exception + string := inr prompt.

(** A transcription provider that returns the same transcript for every
    input. *)
Definition const_transcribe (t : Transcript)
  : bytes -> TranscriptionConfig -> exception + Transcript :=
  fun _ _ => inr t.

(** A synthesis provider that yields the same chunks for every text. *)
Definition const_convert (chunks : list bytes)
  : string -> string -> string -> string -> exception + generator :=
  fun _ _ _ _ => inr (iter chunks).

Definition transcript_ok (text : option string) : Transcript :=
  {| t_status := completed; t_id := Some "t-1";
     t_text := text; t_error := None |}.

Definition transcript_failed (diag : string) : Transcript :=
  {| t_status := error; t_id := Some "t-1";
     t_text := None; t_error := Some diag |}.

Definition audio_upload (ct : option string) (data : bytes) : UploadFile :=
  {| filename := Some "clip.webm"; content_type := ct;
     size := Some (List.length data); contents := data |}.

Definition demo_env : Providers :=
  {| transcribe := const_transcribe (transcript_ok (Some "Hello there"));
     llm := Some echo_llm;
     convert := const_convert [bytes_lit "AUDIO"] |}.

End Stubs.

Import Stubs.

(** ** How far a request gets

    The conditions under which the handler arrives at each provider call,
    read off the guards of [upload_file_body]. *)

(** The prompt that line 72 builds from a transcript. *)
Definition prompt_of (t : Transcript) : string :=
  summarize_instruction ++ fmt (t_text t).

(** The media-type check passes and the payload is not empty. *)
Definition reaches_transcription (file : UploadFile) : Prop :=
  content_type_rejected (content_type file) = false /\ contents file <> [].

(** The transcription provider returned [t], and not with the error
    status. *)
Definition reaches_summarization
  (env : Providers) (file : UploadFile) (t : Transcript) : Prop :=
  reaches_transcription file
  /\ transcribe env (contents file) config = inr t
  /\ t_status t <> error.

(** The language model is bound and returned [r] for the prompt. *)
Definition reaches_synthesis
  (env : Providers) (file : UploadFile) (t : Transcript) (r : string) : Prop :=
  reaches_summarization env file t
  /\ exists f, llm env = Some f /\ f (prompt_of t) = inr r.

(** The exception that leaves the handler when [e] is raised inside the
    [try] block. *)
Definition translated (e : exception) : exception :=
  match e with
  | HTTPException _ _ => e
  | Exception _ msg => HTTPException 500 ("Internal server error: " ++ msg)
  end.

(** ** Generators that fail, and where provider exceptions come from *)

(** A generator that yields [chunks] and then raises [e]. *)
Fixpoint iter_then_raise (chunks : list bytes) (e : exception) : generator :=
  match chunks with
  | [] => Raise e
  | c :: cs => Yield c (iter_then_raise cs e)
  end.

(** The four places of a request at which an exception comes out of a
    provider: the transcription call (line 61), the call of the language
    model (line 73), the synthesis call (line 75) and the iteration over
    the chunks in [join] (line 81). *)
Inductive provider_raises (env : Providers) (file : UploadFile)
  : exception -> Prop :=
| raises_transcribe e :
    reaches_transcription file ->
    transcribe env (contents file) config = inl e ->
    provider_raises env file e
| raises_llm t f e :
    reaches_summarization env file t ->
    llm env = Some f ->
    f (prompt_of t) = inl e ->
    provider_raises env file e
| raises_convert t r e :
    reaches_synthesis env file t r ->
    convert env r voice_id model_id output_format = inl e ->
    provider_raises env file e
| raises_generator t r g e :
    reaches_synthesis env file t r ->
    convert env r voice_id model_id output_format = inr g ->
    join g = inl e ->
    provider_raises env file e.

(** The ways through the handler: each constructor is one exit of
    [upload_file], with the outcome and the provider calls made on the
    way. *)
Inductive exit (env : Providers) (file : UploadFile)
  : (exception + StreamingResponse) -> list event -> Prop :=
| exit_rejected :
    content_type_rejected (content_type file) = true ->
    exit env file
      (inl (HTTPException 400 (unsupported_detail (content_type file)))) []
| exit_empty :
    content_type_rejected (content_type file) = false ->
    contents file = [] ->
    exit env file (inl (HTTPException 400 empty_detail)) []
| exit_transcribe_raises e :
    reaches_transcription file ->
    transcribe env (contents file) config = inl e ->
    exit env file (inl (translated e)) [Transcribe (contents file) config]
| exit_transcript_error t :
    reaches_transcription file ->
    transcribe env (contents file) config = inr t ->
    t_status t = error ->
    exit env file
      (inl (HTTPException 500 ("Transcription failed: " ++ fmt (t_error t))))
      [Transcribe (contents file) config]
| exit_llm_unbound t :
    reaches_summarization env file t ->
    llm env = None ->
    exit env file
      (inl (HTTPException 500 "Internal server error: name 'llm' is not defined"))
      [Transcribe (contents file) config]
| exit_llm_raises t f e :
    reaches_summarization env file t ->
    llm env = Some f ->
    f (prompt_of t) = inl e ->
    exit env file (inl (translated e))
      [Transcribe (contents file) config; Invoke (prompt_of t)]
| exit_convert_raises t r e :
    reaches_synthesis env file t r ->
    convert env r voice_id model_id output_format = inl e ->
    exit env file (inl (translated e))
      [Transcribe (contents file) config; Invoke (prompt_of t);
       Convert r voice_id model_id output_format]
| exit_join_raises t r g e :
    reaches_synthesis env file t r ->
    convert env r voice_id model_id output_format = inr g ->
    join g = inl e ->
    exit env file (inl (translated e))
      [Transcribe (contents file) config; Invoke (prompt_of t);
       Convert r voice_id model_id output_format]
| exit_response t r g audio :
    reaches_synthesis env file t r ->
    convert env r voice_id model_id output_format = inr g ->
    join g = inr audio ->
    exit env file (inr (mkStreamingResponse audio "audio/mpeg"))
      [Transcribe (contents file) config; Invoke (prompt_of t);
       Convert r voice_id model_id output_format].

(** ** The upload as an object with a read position

    The handler does not receive bytes: it receives a reference to an
    [UploadFile] object, whose bytes sit in a file with a read position.
    [await file.read()] (line 43) returns the bytes from the position to
    the end and leaves the position at the end; the handler never seeks
    back.  The objects live in a heap that requests share, next to the
    log of provider calls. *)

Definition ref := nat.

Record UploadObject : Type := {
  o_filename : option string;
  o_content_type : option string;
  o_size : option nat;
  o_data : bytes;        (* the uploaded bytes *)
  o_pos : nat            (* the read position *)
}.

(** The bytes that a [read()] of the object returns. *)
Definition pending (o : UploadObject) : bytes := skipn (o_pos o) (o_data o).

(** The object once it has been read to the end. *)
Definition at_end (o : UploadObject) : UploadObject :=
  {| o_filename := o_filename o;
     o_content_type := o_content_type o;
     o_size := o_size o;
     o_data := o_data o;
     o_pos := Nat.max (o_pos o) (List.length (o_data o)) |}.

Definition heap := ref -> UploadObject.

Definition heap_set (hp : heap) (r : ref) (o : UploadObject) : heap :=
  fun r' => if Nat.eqb r' r then o else hp r'.

Record World : Type := {
  w_log : trace;
  w_heap : heap
}.

(** The handler's view of an object at the moment it is called. *)
Definition view (o : UploadObject) : UploadFile :=
  {| filename := o_filename o;
     content_type := o_content_type o;
     size := o_size o;
     contents := pending o |}.

Definition MW (A : Type) : Type := World -> (exception + A) * World.

Definition retW {A} (a : A) : MW A := fun w => (inr a, w).

Definition bindW {A B} (m : MW A) (k : A -> MW B) : MW B :=
  fun w =>
    match m w with
    | (inl e, w') => (inl e, w')
    | (inr a, w') => k a w'
    end.

Definition try_exceptW {A} (m : MW A) (h : exception -> MW A) : MW A :=
  fun w =>
    match m w with
    | (inl e, w') => h e w'
    | (inr a, w') => (inr a, w')
    end.

(** A step that touches the log only. *)
Definition liftW {A} (m : M A) : MW A :=
  fun w =>
    let (res, tr) := m (w_log w) in
    (res, {| w_log := tr; w_heap := w_heap w |}).

(** Reading an attribute of the object. *)
Definition attr {A} (f : UploadObject -> A) (r : ref) : MW A :=
  fun w => (inr (f (w_heap w r)), w).

(** [await file.read()]. *)
Definition read (r : ref) : MW bytes :=
  fun w =>
    let o := w_heap w r in
    (inr (pending o),
     {| w_log := w_log w; w_heap := heap_set (w_heap w) r (at_end o) |}).

Declare Scope world_scope.
Delimit Scope world_scope with world.
Notation "x <- m ;; k" := (bindW m (fun x => k))
  (at level 61, m at next level, right associativity) : world_scope.
Notation "m ;; k" := (bindW m (fun _ => k))
  (at level 61, right associativity) : world_scope.

Module Object.

Local Open Scope world_scope.

(** The body of the [try] block, on the object [file]. *)
Definition upload_file_body (env : Providers) (file : ref)
  : MW StreamingResponse :=
  ct <- attr o_content_type file ;;
  liftW (raise_if (content_type_rejected ct)
           (HTTPException 400 (unsupported_detail ct))) ;;
  file_bytes <- read file ;;
  liftW (raise_if (List.length file_bytes =? 0)%nat
           (HTTPException 400 empty_detail)) ;;
  transcript <- liftW (call (Transcribe file_bytes config)
                            (transcribe env file_bytes config)) ;;
  liftW (raise_if (status_eqb (t_status transcript) error)
           (HTTPException 500
              ("Transcription failed: " ++ fmt (t_error transcript)))) ;;
  let transcript_text := t_text transcript in
  let prompt := summarize_instruction ++ fmt transcript_text in
  response <- liftW (llm_invoke env prompt) ;;
  audio_generator <-
    liftW (call (Convert response voice_id model_id output_format)
                (convert env response voice_id model_id output_format)) ;;
  audio <- liftW (fun tr => (join audio_generator, tr)) ;;
  retW (mkStreamingResponse audio "audio/mpeg").

Definition upload_file (env : Providers) (file : ref) : MW StreamingResponse :=
  try_exceptW (upload_file_body env file)
              (fun e => liftW (upload_file_handler e)).

End Object.

(** A heap with two uploads of the same bytes under different names, at
    the references 0 and 1, and an empty log. *)
Definition two_uploads : World :=
  {| w_log := [];
     w_heap := fun r =>
       if Nat.eqb r 0
       then {| o_filename := Some "clip.webm";
               o_content_type := Some "audio/webm";
               o_size := Some 4; o_data := bytes_lit "RIFF"; o_pos := 0 |}
       else {| o_filename := Some "again.webm";
               o_content_type := Some "audio/webm";
               o_size := None; o_data := bytes_lit "RIFF"; o_pos := 0 |} |}.

(** ** Runs on concrete inputs *)

Example run_demo :
  upload_file demo_env (audio_upload (Some "audio/webm") (bytes_lit "RIFF")) []
  = (inr (mkStreamingResponse (bytes_lit "AUDIO") "audio/mpeg"),
     [Transcribe (bytes_lit "RIFF") config;
      Invoke (summarize_instruction ++ "Hello there");
      Convert (summarize_instruction ++ "Hello there")
              voice_id model_id output_format]).
Proof. reflexivity. Qed.

Example run_text_plain :
  upload_file demo_env (audio_upload (Some "text/plain") (bytes_lit "RIFF")) []
  = (inl (HTTPException 400
      "File type 'text/plain' may not be supported. Try uploading a .wav, .mp3, or .webm file."),
     []).
Proof. reflexivity. Qed.

Example run_octet_stream_empty :
  upload_file demo_env (audio_upload (Some "application/octet-stream") []) []
  = (inl (HTTPException 400 "Uploaded file is empty"), []).
Proof. reflexivity. Qed.

Example run_llm_unbound :
  upload_file {| transcribe := transcribe demo_env; llm := None;
                 convert := convert demo_env |}
              (audio_upload None (bytes_lit "RIFF")) []
  = (inl (HTTPException 500 "Internal server error: name 'llm' is not defined"),
     [Transcribe (bytes_lit "RIFF") config]).
Proof. reflexivity. Qed.

(** ** Basic facts on the Python values *)

Lemma contains_refl (s : string) : contains s s.
Proof.
  exists "", "". simpl.
  induction s as [|c s IH]; simpl; [reflexivity | now rewrite <- IH].
Qed.

Lemma contains_app_r (p s sub : string) : contains s sub -> contains (p ++ s) sub.
Proof.
  intros (pre & post & ->). exists (p ++ pre), post.
  induction p as [|c p IH]; simpl; [reflexivity | now rewrite IH].
Qed.

Lemma contains_app_l (s q sub : string) : contains s sub -> contains (s ++ q) sub.
Proof.
  intros (pre & post & ->). exists pre, (post ++ q).
  induction pre as [|c pre IH]; simpl.
  - induction sub as [|c sub IH]; simpl; [reflexivity | now rewrite IH].
  - now rewrite IH.
Qed.

Lemma length_eqb_0_false {A} (l : list A) :
  l <> [] -> (List.length l =? 0)%nat = false.
Proof. destruct l; [congruence | reflexivity]. Qed.

Lemma status_eqb_eq (x y : TranscriptStatus) : status_eqb x y = true <-> x = y.
Proof. destruct x, y; simpl; split; congruence. Qed.

Lemma status_eqb_error_false (x : TranscriptStatus) :
  x <> error -> status_eqb x error = false.
Proof. destruct x; simpl; congruence. Qed.

Lemma join_iter (chunks : list bytes) : join (iter chunks) = inr (concat chunks).
Proof.
  induction chunks as [|c cs IH]; simpl; [reflexivity | now rewrite IH].
Qed.

Lemma content_type_rejected_None : content_type_rejected None = false.
Proof. reflexivity. Qed.

Lemma content_type_rejected_empty : content_type_rejected (Some "") = false.
Proof. reflexivity. Qed.

Lemma content_type_rejected_Some (s : string) :
  s <> "" ->
  startswith s "audio/" = false ->
  s <> "application/octet-stream" ->
  content_type_rejected (Some s) = true.
Proof.
  intros Hne Hpre Hoct. unfold content_type_rejected, str_truthy, str_in.
  rewrite Hpre. simpl existsb.
  destruct (String.eqb_spec s "") as [|_]; [contradiction|].
  destruct (String.eqb_spec s "application/octet-stream") as [|_];
    [contradiction | reflexivity].
Qed.

Lemma upload_file_handler_run (e : exception) (tr : trace) :
  upload_file_handler e tr = (inl (translated e), tr).
Proof. destruct e; reflexivity. Qed.

(** ** The handler, stage by stage

    One equation per way out of [upload_file]: the outcome and the log of
    provider calls, for any log [tr] the request starts from. *)

Ltac run_handler :=
  cbv beta iota zeta delta
    [upload_file upload_file_body try_except bind raise_if call ret raise
     llm_invoke prompt_of].

Section Stages.

Variable env : Providers.
Variable file : UploadFile.
Variable tr : trace.

Lemma stage_rejected :
  content_type_rejected (content_type file) = true ->
  upload_file env file tr
  = (inl (HTTPException 400 (unsupported_detail (content_type file))), tr).
Proof. intros H. run_handler. rewrite H. reflexivity. Qed.

Lemma stage_empty :
  content_type_rejected (content_type file) = false ->
  contents file = [] ->
  upload_file env file tr = (inl (HTTPException 400 empty_detail), tr).
Proof. intros H E. run_handler. rewrite H, E. reflexivity. Qed.

Lemma stage_transcribe_raises (e : exception) :
  reaches_transcription file ->
  transcribe env (contents file) config = inl e ->
  upload_file env file tr
  = (inl (translated e), tr ++ [Transcribe (contents file) config])%list.
Proof.
  intros [H N] T. run_handler.
  rewrite H, (length_eqb_0_false _ N), T.
  apply upload_file_handler_run.
Qed.

Lemma stage_transcript_error (t : Transcript) :
  reaches_transcription file ->
  transcribe env (contents file) config = inr t ->
  t_status t = error ->
  upload_file env file tr
  = (inl (HTTPException 500 ("Transcription failed: " ++ fmt (t_error t))),
     tr ++ [Transcribe (contents file) config])%list.
Proof.
  intros [H N] T S. run_handler.
  rewrite H, (length_eqb_0_false _ N), T, S. reflexivity.
Qed.

Lemma stage_llm_unbound (t : Transcript) :
  reaches_summarization env file t ->
  llm env = None ->
  upload_file env file tr
  = (inl (HTTPException 500 "Internal server error: name 'llm' is not defined"),
     tr ++ [Transcribe (contents file) config])%list.
Proof.
  intros ([H N] & T & S) L. run_handler.
  rewrite H, (length_eqb_0_false _ N), T, (status_eqb_error_false _ S), L.
  reflexivity.
Qed.

Lemma stage_llm_raises (t : Transcript) f (e : exception) :
  reaches_summarization env file t ->
  llm env = Some f ->
  f (prompt_of t) = inl e ->
  upload_file env file tr
  = (inl (translated e),
     tr ++ [Transcribe (contents file) config; Invoke (prompt_of t)])%list.
Proof.
  intros ([H N] & T & S) L F. unfold prompt_of in F. run_handler.
  rewrite H, (length_eqb_0_false _ N), T, (status_eqb_error_false _ S), L, F.
  rewrite upload_file_handler_run, <- app_assoc. reflexivity.
Qed.

Lemma stage_convert_raises (t : Transcript) (r : string) (e : exception) :
  reaches_synthesis env file t r ->
  convert env r voice_id model_id output_format = inl e ->
  upload_file env file tr
  = (inl (translated e),
     tr ++ [Transcribe (contents file) config; Invoke (prompt_of t);
            Convert r voice_id model_id output_format])%list.
Proof.
  intros (([H N] & T & S) & f & L & F) C. unfold prompt_of in F. run_handler.
  rewrite H, (length_eqb_0_false _ N), T, (status_eqb_error_false _ S), L, F, C.
  rewrite upload_file_handler_run, <- !app_assoc. reflexivity.
Qed.

Lemma stage_join (t : Transcript) (r : string) (g : generator) :
  reaches_synthesis env file t r ->
  convert env r voice_id model_id output_format = inr g ->
  upload_file env file tr
  = (match join g with
     | inl e => inl (translated e)
     | inr audio => inr (mkStreamingResponse audio "audio/mpeg")
     end,
     tr ++ [Transcribe (contents file) config; Invoke (prompt_of t);
            Convert r voice_id model_id output_format])%list.
Proof.
  intros (([H N] & T & S) & f & L & F) C. unfold prompt_of in F. run_handler.
  rewrite H, (length_eqb_0_false _ N), T, (status_eqb_error_false _ S), L, F, C.
  destruct (join g) as [e|audio].
  - rewrite upload_file_handler_run, <- !app_assoc. reflexivity.
  - rewrite <- !app_assoc. reflexivity.
Qed.

End Stages.

(** ** Properties of the handler *)

(** C1. A non-empty upload whose content type passes the media-type check,
    with a transcription provider that succeeds with the text
    "Hello there", a language model that echoes its prompt and a synthesis
    provider that yields the single chunk b"AUDIO": the handler returns a
    response with status 200, media type audio/mpeg and body b"AUDIO", and
    the prompt given to the language model contains "Hello there". *)
Theorem upload_file_hello_there
  (env : Providers) (file : UploadFile) (tr : trace) (t : Transcript) :
  contents file <> [] ->
  content_type_rejected (content_type file) = false ->
  (forall data cfg, transcribe env data cfg = inr t) ->
  t_status t = completed ->
  t_text t = Some "Hello there" ->
  llm env = Some echo_llm ->
  (forall text v m o, convert env text v m o = inr (iter [bytes_lit "AUDIO"])) ->
  exists prompt,
    upload_file env file tr
    = (inr {| status_code := 200; media_type := "audio/mpeg";
              body := bytes_lit "AUDIO" |},
       tr ++ [Transcribe (contents file) config; Invoke prompt;
              Convert prompt voice_id model_id output_format])%list
    /\ contains prompt "Hello there".
Proof.
  intros N H T S X L C. exists (prompt_of t). split.
  - rewrite (stage_join env file tr t (prompt_of t) (iter [bytes_lit "AUDIO"])).
    + reflexivity.
    + repeat split; auto.
      * rewrite S. discriminate.
      * exists echo_llm. split; [exact L | reflexivity].
    + apply C.
  - unfold prompt_of. rewrite X. apply contains_app_r, contains_refl.
Qed.

Lemma upload_file_hello_there_witness :
  exists prompt,
    upload_file demo_env (audio_upload (Some "audio/webm") (bytes_lit "RIFF")) []
    = (inr {| status_code := 200; media_type := "audio/mpeg";
              body := bytes_lit "AUDIO" |},
       [] ++ [Transcribe (bytes_lit "RIFF") config; Invoke prompt;
              Convert prompt voice_id model_id output_format])%list
    /\ contains prompt "Hello there".
Proof.
  apply (upload_file_hello_there demo_env
           (audio_upload (Some "audio/webm") (bytes_lit "RIFF")) []
           (transcript_ok (Some "Hello there"))).
  - vm_compute. discriminate.
  - reflexivity.
  - reflexivity.
  - reflexivity.
  - reflexivity.
  - reflexivity.
  - reflexivity.
Defined.

(** C2, as stated, fails: the media-type check of line 40 runs before the
    payload is read, so an empty upload declared as text/plain gets the
    media-type message, not "Uploaded file is empty". *)
Lemma upload_file_empty_text_plain :
  let file := audio_upload (Some "text/plain") [] in
  List.length (contents file) = 0
  /\ upload_file demo_env file []
     = (inl (HTTPException 400
          "File type 'text/plain' may not be supported. Try uploading a .wav, .mp3, or .webm file."),
        [])
  /\ fst (upload_file demo_env file [])
     <> inl (HTTPException 400 "Uploaded file is empty").
Proof.
  repeat split. vm_compute. discriminate.
Qed.

(** C2, amended. For every upload with a zero-length body the handler
    raises an HTTP error with status 400 and calls no provider, whatever
    the declared content type; the message is "Uploaded file is empty"
    when the content type passes the media-type check, and the
    media-type message when it does not. *)
Theorem upload_file_empty_payload
  (env : Providers) (file : UploadFile) (tr : trace) :
  List.length (contents file) = 0 ->
  upload_file env file tr
  = (inl (HTTPException 400
            (if content_type_rejected (content_type file)
             then unsupported_detail (content_type file)
             else "Uploaded file is empty")),
     tr).
Proof.
  intros E. apply length_zero_iff_nil in E.
  destruct (content_type_rejected (content_type file)) eqn:H.
  - now apply stage_rejected.
  - now apply stage_empty.
Qed.

Lemma upload_file_empty_payload_witness :
  upload_file demo_env (audio_upload (Some "audio/wav") []) []
  = (inl (HTTPException 400 "Uploaded file is empty"), []).
Proof.
  apply (upload_file_empty_payload demo_env (audio_upload (Some "audio/wav") []) []).
  reflexivity.
Defined.

(** C3, as stated, fails: the check of line 40 tests the truth value of
    the declared content type, and the empty string is false.  An upload
    whose content type is present but empty is neither an audio type nor
    the generic-binary type, and still it passes the check and goes
    through the three providers. *)
Lemma upload_file_empty_content_type :
  let file := audio_upload (Some "") (bytes_lit "RIFF") in
  content_type file = Some ""
  /\ startswith "" "audio/" = false
  /\ "" <> "application/octet-stream"
  /\ upload_file demo_env file []
     = (inr (mkStreamingResponse (bytes_lit "AUDIO") "audio/mpeg"),
        [Transcribe (bytes_lit "RIFF") config;
         Invoke (summarize_instruction ++ "Hello there");
         Convert (summarize_instruction ++ "Hello there")
                 voice_id model_id output_format]).
Proof.
  repeat split. discriminate.
Qed.

(** C3, amended. For every upload whose declared content type is present
    and not the empty string, does not start with "audio/" and is not
    "application/octet-stream", the handler raises an HTTP error with
    status 400 and the unsupported-media-type message, and calls no
    provider. *)
Theorem upload_file_unsupported_media_type
  (env : Providers) (file : UploadFile) (tr : trace) (ct : string) :
  content_type file = Some ct ->
  ct <> "" ->
  startswith ct "audio/" = false ->
  ct <> "application/octet-stream" ->
  upload_file env file tr
  = (inl (HTTPException 400
            ("File type '" ++ ct
             ++ "' may not be supported. Try uploading a .wav, .mp3, or .webm file.")),
     tr).
Proof.
  intros E Hne Hpre Hoct.
  rewrite stage_rejected; rewrite E.
  - reflexivity.
  - now apply content_type_rejected_Some.
Qed.

Lemma upload_file_unsupported_media_type_witness :
  upload_file demo_env (audio_upload (Some "video/mp4") (bytes_lit "RIFF")) []
  = (inl (HTTPException 400
            "File type 'video/mp4' may not be supported. Try uploading a .wav, .mp3, or .webm file."),
     []).
Proof.
  apply (upload_file_unsupported_media_type demo_env
           (audio_upload (Some "video/mp4") (bytes_lit "RIFF")) [] "video/mp4").
  - reflexivity.
  - discriminate.
  - reflexivity.
  - discriminate.
Defined.

(** C4. A non-empty upload that passes the media-type check, with a
    transcription provider that returns the error status and the
    diagnostic text "D": the handler raises an HTTP error with status 500
    whose message contains "Transcription failed: D", and the only
    provider call of the request is the transcription: the language model
    and the synthesis provider are not called. *)
Theorem upload_file_transcription_failed
  (env : Providers) (file : UploadFile) (tr : trace) (t : Transcript) :
  contents file <> [] ->
  content_type_rejected (content_type file) = false ->
  transcribe env (contents file) config = inr t ->
  t_status t = error ->
  t_error t = Some "D" ->
  exists detail,
    upload_file env file tr
    = (inl (HTTPException 500 detail),
       tr ++ [Transcribe (contents file) config])%list
    /\ contains detail "Transcription failed: D".
Proof.
  intros N H T S D. exists "Transcription failed: D". split.
  - rewrite (stage_transcript_error env file tr t); [| split | |]; auto.
    rewrite D. reflexivity.
  - apply contains_refl.
Qed.

Lemma upload_file_transcription_failed_witness :
  exists detail,
    upload_file
      {| transcribe := const_transcribe (transcript_failed "D");
         llm := Some echo_llm;
         convert := const_convert [bytes_lit "AUDIO"] |}
      (audio_upload (Some "audio/webm") (bytes_lit "RIFF")) []
    = (inl (HTTPException 500 detail),
       [] ++ [Transcribe (bytes_lit "RIFF") config])%list
    /\ contains detail "Transcription failed: D".
Proof.
  apply (upload_file_transcription_failed _
           (audio_upload (Some "audio/webm") (bytes_lit "RIFF")) []
           (transcript_failed "D")).
  - vm_compute. discriminate.
  - reflexivity.
  - reflexivity.
  - reflexivity.
  - reflexivity.
Defined.

(** C5. When the summarization step raises an exception that is not an
    [HTTPException] (the language model raises it, or the name [llm] is
    unbound), the handler raises an HTTP error with status 500 and the
    message "Internal server error: " followed by the text of the
    exception, and none of the provider calls of the request is a call of
    the synthesis provider. *)
Theorem upload_file_summarization_raises
  (env : Providers) (file : UploadFile) (tr : trace) (t : Transcript)
  (ty msg : string) :
  reaches_summarization env file t ->
  fst (llm_invoke env (prompt_of t) []) = inl (Exception ty msg) ->
  exists calls,
    upload_file env file tr
    = (inl (HTTPException 500 ("Internal server error: " ++ msg)),
       tr ++ calls)%list
    /\ existsb is_convert calls = false
    /\ contains ("Internal server error: " ++ msg) msg.
Proof.
  intros R E. unfold llm_invoke in E.
  destruct (llm env) as [f|] eqn:L; simpl in E.
  - exists [Transcribe (contents file) config; Invoke (prompt_of t)].
    split; [| split].
    + rewrite (stage_llm_raises env file tr t f (Exception ty msg)); auto.
    + reflexivity.
    + apply contains_app_r, contains_refl.
  - injection E as <- <-.
    exists [Transcribe (contents file) config]. split; [| split].
    + now rewrite (stage_llm_unbound env file tr t).
    + reflexivity.
    + apply contains_app_r, contains_refl.
Qed.

Lemma upload_file_summarization_raises_witness :
  exists calls,
    upload_file
      {| transcribe := const_transcribe (transcript_ok (Some "Hello there"));
         llm := Some (fun _ => inl (Exception "ConnectionError" "ollama is down"));
         convert := const_convert [bytes_lit "AUDIO"] |}
      (audio_upload None (bytes_lit "RIFF")) []
    = (inl (HTTPException 500 ("Internal server error: " ++ "ollama is down")),
       [] ++ calls)%list
    /\ existsb is_convert calls = false
    /\ contains ("Internal server error: " ++ "ollama is down") "ollama is down".
Proof.
  apply (upload_file_summarization_raises _
           (audio_upload None (bytes_lit "RIFF")) []
           (transcript_ok (Some "Hello there")) "ConnectionError").
  - repeat split.
    + vm_compute. discriminate.
    + simpl. discriminate.
  - reflexivity.
Defined.



(** A request that passes both checks starts with the transcription call. *)
Lemma upload_file_transcribes (env : Providers) (file : UploadFile) (tr : trace) :
  reaches_transcription file ->
  exists res rest,
    upload_file env file tr
    = (res, tr ++ Transcribe (contents file) config :: rest)%list.
Proof.
  intros R.
  destruct (transcribe env (contents file) config) as [e|t] eqn:T.
  { eexists _, _. now rewrite (stage_transcribe_raises env file _ e). }
  destruct (status_eqb (t_status t) error) eqn:S.
  { apply status_eqb_eq in S. eexists _, _.
    now rewrite (stage_transcript_error env file _ t). }
  assert (R' : reaches_summarization env file t).
  { repeat split; try apply R; auto. intros E. rewrite E in S. discriminate. }
  destruct (llm env) as [f|] eqn:L.
  2: { eexists _, _. now rewrite (stage_llm_unbound env file _ t). }
  destruct (f (prompt_of t)) as [e|r] eqn:F.
  { eexists _, _. now rewrite (stage_llm_raises env file _ t f e). }
  assert (R'' : reaches_synthesis env file t r).
  { split; [exact R' | exists f; auto]. }
  destruct (convert env r voice_id model_id output_format) as [e|g] eqn:C.
  { eexists _, _. now rewrite (stage_convert_raises env file _ t r e). }
  eexists _, _. now rewrite (stage_join env file _ t r g).
Qed.

(** No exception other than an [HTTPException] leaves the handler. *)
Lemma upload_file_raises_http
  (env : Providers) (file : UploadFile) (tr : trace) (e : exception) :
  fst (upload_file env file tr) = inl e ->
  exists code detail, e = HTTPException code detail.
Proof.
  unfold upload_file, try_except.
  destruct (upload_file_body env file tr) as [[e'|a] tr']; simpl.
  - rewrite upload_file_handler_run. simpl. intros [= <-].
    destruct e'; simpl; eauto.
  - discriminate.
Qed.

(** C6. For every request that reaches the synthesis step and every finite
    sequence of chunks that the synthesis provider yields, the body of the
    response is the concatenation of the chunks, in order and with nothing
    dropped; for the chunks b"AB", b"CD" it is b"ABCD". *)
Theorem upload_file_joins_chunks
  (env : Providers) (file : UploadFile) (tr : trace) (t : Transcript)
  (r : string) (chunks : list bytes) :
  reaches_synthesis env file t r ->
  convert env r voice_id model_id output_format = inr (iter chunks) ->
  fst (upload_file env file tr)
  = inr {| status_code := 200; media_type := "audio/mpeg";
           body := concat chunks |}.
Proof.
  intros R C. rewrite (stage_join env file tr t r (iter chunks) R C).
  rewrite join_iter. reflexivity.
Qed.

Lemma upload_file_joins_chunks_witness :
  fst (upload_file
         {| transcribe := const_transcribe (transcript_ok (Some "Hello there"));
            llm := Some echo_llm;
            convert := const_convert [bytes_lit "AB"; bytes_lit "CD"] |}
         (audio_upload (Some "audio/webm") (bytes_lit "RIFF")) [])
  = inr {| status_code := 200; media_type := "audio/mpeg";
           body := bytes_lit "ABCD" |}.
Proof.
  apply (upload_file_joins_chunks _
           (audio_upload (Some "audio/webm") (bytes_lit "RIFF")) []
           (transcript_ok (Some "Hello there"))
           (summarize_instruction ++ "Hello there")
           [bytes_lit "AB"; bytes_lit "CD"]).
  - repeat split.
    + vm_compute. discriminate.
    + simpl. discriminate.
    + exists echo_llm. split; reflexivity.
  - reflexivity.
Defined.

(** C7. For every request that reaches the summarization step with the
    language model bound, the request calls the language model once, and
    the prompt of that call is the fixed instruction
    "Summarize this in one very short sentence:" and two newlines followed
    by the transcript text as an f-string writes it: the whole text, so
    that the length of the prompt is the length of the instruction plus
    the length of the text. *)
Theorem upload_file_prompt
  (env : Providers) (file : UploadFile) (tr : trace) (t : Transcript)
  (f : string -> exception + string) :
  reaches_summarization env file t ->
  llm env = Some f ->
  let prompt :=
    "Summarize this in one very short sentence:" ++ nl ++ nl ++ fmt (t_text t) in
  exists res rest,
    upload_file env file tr
    = (res, tr ++ Transcribe (contents file) config :: Invoke prompt :: rest)%list
    /\ existsb is_invoke rest = false
    /\ String.length prompt = 44 + String.length (fmt (t_text t)).
Proof.
  intros R L prompt.
  assert (P : prompt = prompt_of t) by reflexivity.
  assert (Len : String.length prompt = 44 + String.length (fmt (t_text t)))
    by reflexivity.
  rewrite P in *. clear P prompt.
  destruct (f (prompt_of t)) as [e|r] eqn:F.
  { exists (inl (translated e)), []. split; [| split; [reflexivity | exact Len]].
    now rewrite (stage_llm_raises env file tr t f e). }
  assert (R' : reaches_synthesis env file t r).
  { split; [exact R | exists f; auto]. }
  destruct (convert env r voice_id model_id output_format) as [e|g] eqn:C.
  { eexists _, [Convert r voice_id model_id output_format].
    split; [| split; [reflexivity | exact Len]].
    now rewrite (stage_convert_raises env file tr t r e). }
  eexists _, [Convert r voice_id model_id output_format].
  split; [| split; [reflexivity | exact Len]].
  now rewrite (stage_join env file tr t r g).
Qed.

Lemma upload_file_prompt_witness :
  let prompt :=
    "Summarize this in one very short sentence:" ++ nl ++ nl ++ "Hello there" in
  exists res rest,
    upload_file demo_env (audio_upload (Some "audio/webm") (bytes_lit "RIFF")) []
    = (res, [] ++ Transcribe (bytes_lit "RIFF") config :: Invoke prompt :: rest)%list
    /\ existsb is_invoke rest = false
    /\ String.length prompt = 44 + String.length "Hello there".
Proof.
  apply (upload_file_prompt demo_env
           (audio_upload (Some "audio/webm") (bytes_lit "RIFF")) []
           (transcript_ok (Some "Hello there")) echo_llm).
  - repeat split.
    + vm_compute. discriminate.
    + simpl. discriminate.
  - reflexivity.
Defined.

(** The handler on an object does what [upload_file] does on the view of
    the object, and moves the read position of that object to the end
    when it gets to the [read()]. *)
Lemma object_upload_file_view (env : Providers) (r : ref) (w : World) :
  Object.upload_file env r w
  = (fst (upload_file env (view (w_heap w r)) (w_log w)),
     {| w_log := snd (upload_file env (view (w_heap w r)) (w_log w));
        w_heap :=
          if content_type_rejected (o_content_type (w_heap w r))
          then w_heap w
          else heap_set (w_heap w) r (at_end (w_heap w r)) |}).
Proof.
  destruct w as [tr hp]. simpl w_log. simpl w_heap.
  cbv beta iota zeta delta
    [Object.upload_file Object.upload_file_body try_exceptW bindW retW liftW
     attr read upload_file upload_file_body try_except bind raise_if call ret
     raise llm_invoke view contents content_type w_log w_heap fst snd].
  destruct (content_type_rejected (o_content_type (hp r))); [reflexivity |].
  destruct (List.length (pending (hp r)) =? 0)%nat; [reflexivity |].
  destruct (transcribe env (pending (hp r)) config) as [e|t].
  { destruct (upload_file_handler e (tr ++ [Transcribe (pending (hp r)) config])%list).
    reflexivity. }
  destruct (status_eqb (t_status t) error); [reflexivity |].
  destruct (llm env) as [f|]; [| reflexivity].
  destruct (f (summarize_instruction ++ fmt (t_text t))) as [e|resp].
  { match goal with
    | |- context [upload_file_handler e ?l] => destruct (upload_file_handler e l)
    end. reflexivity. }
  destruct (convert env resp voice_id model_id output_format) as [e|g].
  { match goal with
    | |- context [upload_file_handler e ?l] => destruct (upload_file_handler e l)
    end. reflexivity. }
  destruct (join g) as [e|audio]; [| reflexivity].
  match goal with
  | |- context [upload_file_handler e ?l] => destruct (upload_file_handler e l)
  end. reflexivity.
Qed.


Lemma heap_set_same (hp : heap) (r : ref) (o : UploadObject) :
  heap_set hp r o r = o.
Proof. unfold heap_set. now rewrite Nat.eqb_refl. Qed.

Lemma pending_at_end (o : UploadObject) : pending (at_end o) = [].
Proof.
  unfold pending, at_end. simpl. apply skipn_all2. apply Nat.le_max_r.
Qed.









(** ** Every way through the handler *)

(** Each request leaves the handler by one of the exits of [exit]. *)
Lemma upload_file_exit (env : Providers) (file : UploadFile) (tr : trace) :
  exists res calls,
    upload_file env file tr = (res, tr ++ calls)%list /\ exit env file res calls.
Proof.
  destruct (content_type_rejected (content_type file)) eqn:H.
  { eexists _, []. rewrite stage_rejected, app_nil_r by exact H.
    split; [reflexivity | now constructor]. }
  destruct (contents file) as [|x xs] eqn:N.
  { eexists _, []. rewrite stage_empty, app_nil_r by assumption.
    split; [reflexivity | now constructor]. }
  assert (R : reaches_transcription file) by (split; [exact H | congruence]).
  destruct (transcribe env (contents file) config) as [e|t] eqn:T.
  { eexists _, _. rewrite (stage_transcribe_raises env file _ e) by assumption.
    split; [reflexivity | now constructor]. }
  destruct (status_eqb (t_status t) error) eqn:S.
  { apply status_eqb_eq in S. eexists _, _.
    rewrite (stage_transcript_error env file _ t) by assumption.
    split; [reflexivity | now constructor]. }
  assert (R' : reaches_summarization env file t).
  { repeat split; try apply R; auto. intros E. rewrite E in S. discriminate. }
  destruct (llm env) as [f|] eqn:L.
  2: { eexists _, _. rewrite (stage_llm_unbound env file _ t) by assumption.
       split; [reflexivity | now apply exit_llm_unbound with t]. }
  destruct (f (prompt_of t)) as [e|r] eqn:F.
  { eexists _, _. rewrite (stage_llm_raises env file _ t f e) by assumption.
    split; [reflexivity | now apply exit_llm_raises with f]. }
  assert (R'' : reaches_synthesis env file t r).
  { split; [exact R' | exists f; auto]. }
  destruct (convert env r voice_id model_id output_format) as [e|g] eqn:C.
  { eexists _, _. rewrite (stage_convert_raises env file _ t r e) by assumption.
    split; [reflexivity | now constructor]. }
  eexists _, _. rewrite (stage_join env file _ t r g) by assumption.
  split; [reflexivity |].
  destruct (join g) as [e|audio] eqn:J.
  - now apply exit_join_raises with g.
  - now apply exit_response with g.
Qed.

Lemma app_cons_neq {A} (l rest : list A) (x : A) : (l ++ x :: rest)%list <> l.
Proof.
  intros E. apply (f_equal (@List.length A)) in E.
  rewrite length_app in E. simpl in E. lia.
Qed.

Lemma join_inr_iter (g : generator) (bs : bytes) :
  join g = inr bs -> exists chunks, g = iter chunks /\ bs = concat chunks.
Proof.
  revert bs. induction g as [|c rest IH|e]; simpl; intros bs E.
  - exists []. split; [reflexivity | simpl; congruence].
  - destruct (join rest) as [e|bs'] eqn:J; [discriminate|].
    destruct (IH bs' eq_refl) as (cs & -> & ->).
    exists (c :: cs). split; [reflexivity | simpl; congruence].
  - discriminate.
Qed.

Lemma join_iter_then_raise (chunks : list bytes) (e : exception) :
  join (iter_then_raise chunks e) = inl e.
Proof.
  induction chunks as [|c cs IH]; simpl; [reflexivity | now rewrite IH].
Qed.

Lemma join_inl_iter_then_raise (g : generator) (e : exception) :
  join g = inl e -> exists chunks, g = iter_then_raise chunks e.
Proof.
  induction g as [|c rest IH|e']; simpl; intros E.
  - discriminate.
  - destruct (join rest) as [e''|bs'] eqn:J; [|discriminate].
    injection E as ->. destruct (IH eq_refl) as (cs & ->).
    now exists (c :: cs).
  - injection E as ->. now exists [].
Qed.

Lemma startswith_iff (s p : string) :
  startswith s p = true <-> exists rest, s = p ++ rest.
Proof.
  unfold startswith. revert s.
  induction p as [|c p IH]; intros s; simpl.
  - split; [intros _; now exists s | intros _; destruct s; reflexivity].
  - destruct s as [|d s]; simpl.
    + split; [discriminate | intros (rest & E); discriminate].
    + destruct (Ascii.ascii_dec c d) as [->|Hcd].
      * rewrite IH. split; intros (rest & E); exists rest; congruence.
      * split; [discriminate | intros (rest & E); congruence].
Qed.

(** ** Further properties of the handler *)

(** X1. The provider calls of a request are an initial part of the
    pipeline: none, or the transcription alone, or the transcription and
    the language model, or all three.  Each provider is called at most
    once, the transcription with the bytes of the upload and the fixed
    configuration, the language model with the prompt built from the
    returned transcript, the synthesis with the text that the language
    model returned and the fixed voice, model and output format. *)
Theorem upload_file_call_order
  (env : Providers) (file : UploadFile) (tr : trace) :
  exists calls,
    snd (upload_file env file tr) = (tr ++ calls)%list
    /\ (calls = []
        \/ calls = [Transcribe (contents file) config]
        \/ (exists t,
              transcribe env (contents file) config = inr t
              /\ calls = [Transcribe (contents file) config;
                          Invoke (prompt_of t)])
        \/ (exists t f r,
              transcribe env (contents file) config = inr t
              /\ llm env = Some f
              /\ f (prompt_of t) = inr r
              /\ calls = [Transcribe (contents file) config;
                          Invoke (prompt_of t);
                          Convert r "JBFqnCBsd6RMkjVDRZzb"
                                  "eleven_multilingual_v2" "mp3_44100_128"])).
Proof.
  destruct (upload_file_exit env file tr) as (res & calls & E & X).
  exists calls. rewrite E. split; [reflexivity |].
  destruct X as
    [ | | | | | t f e R L F
      | t r e (R & f & L & F) C
      | t r g e (R & f & L & F) C J
      | t r g audio (R & f & L & F) C J ]; auto.
  - right. right. left. exists t. split; [apply R | reflexivity].
  - right. right. right. exists t, f, r. repeat split; auto. apply R.
  - right. right. right. exists t, f, r. repeat split; auto. apply R.
  - right. right. right. exists t, f, r. repeat split; auto. apply R.
Qed.

(** X2. A request that ends with a response went through the whole
    pipeline: the upload was accepted and not empty, the transcript did
    not carry the error status, the language model returned a summary,
    the synthesis provider yielded a finite sequence of chunks without
    raising, all three providers were called, and the response has status
    200, media type audio/mpeg and the concatenated chunks as its body. *)
Theorem upload_file_response_inv
  (env : Providers) (file : UploadFile) (tr : trace)
  (resp : StreamingResponse) :
  fst (upload_file env file tr) = inr resp ->
  exists t r chunks,
    reaches_synthesis env file t r
    /\ convert env r voice_id model_id output_format = inr (iter chunks)
    /\ resp = {| status_code := 200; media_type := "audio/mpeg";
                 body := concat chunks |}
    /\ snd (upload_file env file tr)
       = (tr ++ [Transcribe (contents file) config; Invoke (prompt_of t);
                 Convert r voice_id model_id output_format])%list.
Proof.
  destruct (upload_file_exit env file tr) as (res & calls & E & X).
  rewrite E. simpl. intros ->.
  inversion X as [ | | | | | | | | t r g audio R C J ]; subst.
  destruct (join_inr_iter g audio J) as (chunks & -> & ->).
  exists t, r, chunks. repeat split; auto; apply R.
Qed.

Lemma upload_file_response_inv_witness :
  exists t r chunks,
    reaches_synthesis demo_env
      (audio_upload (Some "audio/webm") (bytes_lit "RIFF")) t r
    /\ convert demo_env r voice_id model_id output_format = inr (iter chunks)
    /\ mkStreamingResponse (bytes_lit "AUDIO") "audio/mpeg"
       = {| status_code := 200; media_type := "audio/mpeg";
            body := concat chunks |}
    /\ snd (upload_file demo_env
              (audio_upload (Some "audio/webm") (bytes_lit "RIFF")) [])
       = ([] ++ [Transcribe (bytes_lit "RIFF") config; Invoke (prompt_of t);
                 Convert r voice_id model_id output_format])%list.
Proof.
  apply (upload_file_response_inv demo_env
           (audio_upload (Some "audio/webm") (bytes_lit "RIFF")) []
           (mkStreamingResponse (bytes_lit "AUDIO") "audio/mpeg")).
  reflexivity.
Defined.

(** X3. A request makes no provider call exactly when it fails one of
    the two checks on the upload (the declared content type is rejected,
    or the payload is empty), and a request that makes no provider call
    ends with an HTTP error of status 400. *)
Theorem upload_file_no_call_iff
  (env : Providers) (file : UploadFile) (tr : trace) :
  (snd (upload_file env file tr) = tr
   <-> content_type_rejected (content_type file) = true \/ contents file = [])
  /\ (snd (upload_file env file tr) = tr ->
      exists detail, fst (upload_file env file tr) = inl (HTTPException 400 detail)).
Proof.
  assert (K : snd (upload_file env file tr) = tr ->
              content_type_rejected (content_type file) = true
              \/ contents file = []).
  { intros E.
    destruct (content_type_rejected (content_type file)) eqn:H; [now left |].
    right. destruct (contents file) as [|x xs] eqn:N; [reflexivity |].
    exfalso.
    destruct (upload_file_transcribes env file tr) as (res & rest & U).
    - split; [exact H | congruence].
    - rewrite U in E. simpl in E. now apply app_cons_neq in E. }
  split; [split; [exact K |] |].
  - intros [H | N].
    + rewrite stage_rejected by exact H. reflexivity.
    + destruct (content_type_rejected (content_type file)) eqn:H.
      * rewrite stage_rejected by exact H. reflexivity.
      * rewrite stage_empty by assumption. reflexivity.
  - intros E. destruct (K E) as [H | N].
    + rewrite stage_rejected by exact H. simpl. eauto.
    + destruct (content_type_rejected (content_type file)) eqn:H.
      * rewrite stage_rejected by exact H. simpl. eauto.
      * rewrite stage_empty by assumption. simpl. eauto.
Qed.

(** X4. With the name [llm] unbound, as the source file leaves it, no
    request ends with a response: every request ends with an error,
    neither the language model nor the synthesis provider is called, and
    a request that reaches the summarization step ends with status 500
    and the message of the [NameError]. *)
Theorem upload_file_llm_unbound
  (env : Providers) (file : UploadFile) (tr : trace) :
  llm env = None ->
  exists e calls,
    upload_file env file tr = (inl e, tr ++ calls)%list
    /\ existsb is_invoke calls = false
    /\ existsb is_convert calls = false
    /\ (forall t, reaches_summarization env file t ->
        e = HTTPException 500 "Internal server error: name 'llm' is not defined").
Proof.
  intros L.
  destruct (upload_file_exit env file tr) as (res & calls & E & X).
  rewrite E.
  destruct X as
    [ H | H N | e R T | t R T S | t R _
      | t f e R L' F
      | t r e (R & f & L' & F) C
      | t r g e (R & f & L' & F) C J
      | t r g audio (R & f & L' & F) C J ]; try congruence;
    eexists _, _; (split; [reflexivity |]);
    (split; [reflexivity |]); (split; [reflexivity |]);
    intros t' ((H' & N') & T' & S'); congruence.
Qed.

Lemma upload_file_llm_unbound_witness :
  exists e calls,
    upload_file
      {| transcribe := const_transcribe (transcript_ok (Some "Hello there"));
         llm := None;
         convert := const_convert [bytes_lit "AUDIO"] |}
      (audio_upload (Some "audio/webm") (bytes_lit "RIFF")) []
    = (inl e, [] ++ calls)%list
    /\ existsb is_invoke calls = false
    /\ existsb is_convert calls = false
    /\ (forall t,
          reaches_summarization
            {| transcribe := const_transcribe (transcript_ok (Some "Hello there"));
               llm := None;
               convert := const_convert [bytes_lit "AUDIO"] |}
            (audio_upload (Some "audio/webm") (bytes_lit "RIFF")) t ->
          e = HTTPException 500 "Internal server error: name 'llm' is not defined").
Proof.
  apply (upload_file_llm_unbound
           {| transcribe := const_transcribe (transcript_ok (Some "Hello there"));
              llm := None;
              convert := const_convert [bytes_lit "AUDIO"] |}
           (audio_upload (Some "audio/webm") (bytes_lit "RIFF")) []).
  reflexivity.
Defined.

(** X5. When the transcription provider raises an exception that is not
    an [HTTPException], the handler raises an HTTP error with status 500
    and the message "Internal server error: " followed by the text of the
    exception; the transcription is the only provider call of the
    request. *)
Theorem upload_file_transcription_raises
  (env : Providers) (file : UploadFile) (tr : trace) (ty msg : string) :
  contents file <> [] ->
  content_type_rejected (content_type file) = false ->
  transcribe env (contents file) config = inl (Exception ty msg) ->
  upload_file env file tr
  = (inl (HTTPException 500 ("Internal server error: " ++ msg)),
     tr ++ [Transcribe (contents file) config])%list.
Proof.
  intros N H T.
  rewrite (stage_transcribe_raises env file tr (Exception ty msg));
    [reflexivity | now split | exact T].
Qed.

Lemma upload_file_transcription_raises_witness :
  upload_file
    {| transcribe := fun _ _ => inl (Exception "TimeoutError" "timed out");
       llm := Some echo_llm;
       convert := const_convert [bytes_lit "AUDIO"] |}
    (audio_upload (Some "audio/webm") (bytes_lit "RIFF")) []
  = (inl (HTTPException 500 ("Internal server error: " ++ "timed out")),
     [] ++ [Transcribe (bytes_lit "RIFF") config])%list.
Proof.
  apply (upload_file_transcription_raises _
           (audio_upload (Some "audio/webm") (bytes_lit "RIFF")) []
           "TimeoutError" "timed out").
  - vm_compute. discriminate.
  - reflexivity.
  - reflexivity.
Defined.

(** X6. When the synthesis provider yields some chunks and then raises an
    exception that is not an [HTTPException], the chunks already yielded
    are dropped: the handler raises an HTTP error with status 500 and the
    message "Internal server error: " followed by the text of the
    exception, and returns no partial audio. *)
Theorem upload_file_stream_fails
  (env : Providers) (file : UploadFile) (tr : trace) (t : Transcript)
  (r : string) (chunks : list bytes) (ty msg : string) :
  reaches_synthesis env file t r ->
  convert env r voice_id model_id output_format
  = inr (iter_then_raise chunks (Exception ty msg)) ->
  upload_file env file tr
  = (inl (HTTPException 500 ("Internal server error: " ++ msg)),
     tr ++ [Transcribe (contents file) config; Invoke (prompt_of t);
            Convert r voice_id model_id output_format])%list.
Proof.
  intros R C. rewrite (stage_join env file tr t r _ R C).
  rewrite join_iter_then_raise. reflexivity.
Qed.

Lemma upload_file_stream_fails_witness :
  upload_file
    {| transcribe := const_transcribe (transcript_ok (Some "Hello there"));
       llm := Some echo_llm;
       convert := fun _ _ _ _ =>
         inr (iter_then_raise [bytes_lit "AB"; bytes_lit "CD"]
                (Exception "ApiError" "quota exceeded")) |}
    (audio_upload (Some "audio/webm") (bytes_lit "RIFF")) []
  = (inl (HTTPException 500 ("Internal server error: " ++ "quota exceeded")),
     [] ++ [Transcribe (bytes_lit "RIFF") config;
            Invoke (prompt_of (transcript_ok (Some "Hello there")));
            Convert (summarize_instruction ++ "Hello there")
                    voice_id model_id output_format])%list.
Proof.
  apply (upload_file_stream_fails _
           (audio_upload (Some "audio/webm") (bytes_lit "RIFF")) []
           (transcript_ok (Some "Hello there"))
           (summarize_instruction ++ "Hello there")
           [bytes_lit "AB"; bytes_lit "CD"] "ApiError" "quota exceeded").
  - repeat split.
    + vm_compute. discriminate.
    + simpl. discriminate.
    + exists echo_llm. split; reflexivity.
  - reflexivity.
Defined.

(** X7. An [HTTPException] raised by a provider (by the transcription
    call, by the language model, by the synthesis call or while the
    chunks are read) leaves the handler unchanged, with its own status
    code and message: it is not turned into a 500. *)
Theorem upload_file_http_passthrough
  (env : Providers) (file : UploadFile) (tr : trace)
  (code : nat) (detail : string) :
  provider_raises env file (HTTPException code detail) ->
  fst (upload_file env file tr) = inl (HTTPException code detail).
Proof.
  intros P.
  inversion P as [e R T | t f e R L F | t r e R C | t r g e R C J]; subst.
  - now rewrite (stage_transcribe_raises env file tr (HTTPException code detail)).
  - now rewrite (stage_llm_raises env file tr t f (HTTPException code detail)).
  - now rewrite (stage_convert_raises env file tr t r (HTTPException code detail)).
  - rewrite (stage_join env file tr t r g R C), J. reflexivity.
Qed.

Lemma upload_file_http_passthrough_witness :
  fst (upload_file
         {| transcribe := const_transcribe (transcript_ok (Some "Hello there"));
            llm := Some (fun _ => inl (HTTPException 429 "slow down"));
            convert := const_convert [bytes_lit "AUDIO"] |}
         (audio_upload (Some "audio/webm") (bytes_lit "RIFF")) [])
  = inl (HTTPException 429 "slow down").
Proof.
  apply (upload_file_http_passthrough _
           (audio_upload (Some "audio/webm") (bytes_lit "RIFF")) []
           429 "slow down").
  apply (raises_llm _ _ (transcript_ok (Some "Hello there"))
           (fun _ => inl (HTTPException 429 "slow down"))).
  - repeat split.
    + vm_compute. discriminate.
    + simpl. discriminate.
  - reflexivity.
  - reflexivity.
Defined.

(** X8. The errors of the handler: a request that ends with an error ends
    with an [HTTPException], which is the media-type error (400), the
    empty-payload error (400), the transcription failure carrying the
    diagnostic of the returned transcript (500), an internal server error
    (500), or an [HTTPException] that a provider raised. *)
Theorem upload_file_error_taxonomy
  (env : Providers) (file : UploadFile) (tr : trace) (e : exception) :
  fst (upload_file env file tr) = inl e ->
  e = HTTPException 400
        ("File type '" ++ fmt (content_type file)
         ++ "' may not be supported. Try uploading a .wav, .mp3, or .webm file.")
  \/ e = HTTPException 400 "Uploaded file is empty"
  \/ (exists t,
        transcribe env (contents file) config = inr t
        /\ e = HTTPException 500 ("Transcription failed: " ++ fmt (t_error t)))
  \/ (exists msg, e = HTTPException 500 ("Internal server error: " ++ msg))
  \/ (exists code detail,
        e = HTTPException code detail /\ provider_raises env file e).
Proof.
  assert (K : forall e', provider_raises env file e' ->
    (exists msg, translated e' = HTTPException 500 ("Internal server error: " ++ msg))
    \/ (exists code detail, translated e' = HTTPException code detail
                            /\ provider_raises env file (translated e'))).
  { intros [code detail | ty msg] P; simpl; eauto. }
  destruct (upload_file_exit env file tr) as (res & calls & E & X).
  rewrite E. simpl. intros ->.
  inversion X as
    [ H | H N | e' R T | t R T S | t R L
      | t f e' R L F | t r e' R C | t r g e' R C J | ]; subst.
  - now left.
  - now right; left.
  - right; right; right. apply K. now apply raises_transcribe.
  - right; right; left. now exists t.
  - right; right; right; left. now exists "name 'llm' is not defined".
  - right; right; right. apply K. now apply raises_llm with t f.
  - right; right; right. apply K. now apply raises_convert with t r.
  - right; right; right. apply K. now apply raises_generator with t r g.
Qed.

Lemma upload_file_error_taxonomy_witness :
  HTTPException 500 "Transcription failed: no speech"
  = HTTPException 400
      ("File type '" ++ fmt (Some "audio/webm")
       ++ "' may not be supported. Try uploading a .wav, .mp3, or .webm file.")
  \/ HTTPException 500 "Transcription failed: no speech"
     = HTTPException 400 "Uploaded file is empty"
  \/ (exists t,
        const_transcribe (transcript_failed "no speech") (bytes_lit "RIFF") config
        = inr t
        /\ HTTPException 500 "Transcription failed: no speech"
           = HTTPException 500 ("Transcription failed: " ++ fmt (t_error t)))
  \/ (exists msg,
        HTTPException 500 "Transcription failed: no speech"
        = HTTPException 500 ("Internal server error: " ++ msg))
  \/ (exists code detail,
        HTTPException 500 "Transcription failed: no speech"
        = HTTPException code detail
        /\ provider_raises
             {| transcribe := const_transcribe (transcript_failed "no speech");
                llm := Some echo_llm;
                convert := const_convert [bytes_lit "AUDIO"] |}
             (audio_upload (Some "audio/webm") (bytes_lit "RIFF"))
             (HTTPException 500 "Transcription failed: no speech")).
Proof.
  apply (upload_file_error_taxonomy
           {| transcribe := const_transcribe (transcript_failed "no speech");
              llm := Some echo_llm;
              convert := const_convert [bytes_lit "AUDIO"] |}
           (audio_upload (Some "audio/webm") (bytes_lit "RIFF")) []
           (HTTPException 500 "Transcription failed: no speech")).
  reflexivity.
Defined.

(** X9. When the transcription provider returns the error status, the
    handler raises an HTTP error with status 500 whose message is
    "Transcription failed: " followed by the diagnostic of the transcript
    as an f-string writes it, which is "None" when the transcript carries
    no diagnostic; the transcript text is not looked at, and the
    transcription is the only provider call. *)
Theorem upload_file_transcription_diagnostic
  (env : Providers) (file : UploadFile) (tr : trace) (t : Transcript) :
  contents file <> [] ->
  content_type_rejected (content_type file) = false ->
  transcribe env (contents file) config = inr t ->
  t_status t = error ->
  upload_file env file tr
  = (inl (HTTPException 500
            (match t_error t with
             | Some diag => "Transcription failed: " ++ diag
             | None => "Transcription failed: None"
             end)),
     tr ++ [Transcribe (contents file) config])%list.
Proof.
  intros N H T S.
  rewrite (stage_transcript_error env file tr t); [| now split | exact T | exact S].
  destruct (t_error t); reflexivity.
Qed.

Lemma upload_file_transcription_diagnostic_witness :
  upload_file
    {| transcribe := const_transcribe
         {| t_status := error; t_id := None;
            t_text := Some "partial words"; t_error := None |};
       llm := Some echo_llm;
       convert := const_convert [bytes_lit "AUDIO"] |}
    (audio_upload None (bytes_lit "RIFF")) []
  = (inl (HTTPException 500 "Transcription failed: None"),
     [] ++ [Transcribe (bytes_lit "RIFF") config])%list.
Proof.
  apply (upload_file_transcription_diagnostic _
           (audio_upload None (bytes_lit "RIFF")) []
           {| t_status := error; t_id := None;
              t_text := Some "partial words"; t_error := None |}).
  - vm_compute. discriminate.
  - reflexivity.
  - reflexivity.
  - reflexivity.
Defined.

(** X10. The declared content types that pass the media-type check are
    exactly: no content type, the empty string, every string that starts
    with "audio/" (whatever follows, parameters included), and the string
    "application/octet-stream" itself. *)
Theorem media_type_accepted_iff (ct : option string) :
  content_type_rejected ct = false
  <-> ct = None
      \/ ct = Some ""
      \/ (exists rest, ct = Some ("audio/" ++ rest))
      \/ ct = Some "application/octet-stream".
Proof.
  destruct ct as [s|]; simpl.
  2: { split; [intros _; now left | reflexivity]. }
  unfold str_truthy, str_in. simpl existsb.
  destruct (String.eqb_spec s "") as [->|Hne].
  { simpl. split; auto. }
  destruct (startswith s "audio/") eqn:P.
  { simpl. split; [intros _ | reflexivity].
    apply startswith_iff in P. destruct P as (rest & ->).
    right; right; left. now exists rest. }
  destruct (String.eqb_spec s "application/octet-stream") as [->|Hoct].
  { simpl. split; auto. }
  simpl. split; [discriminate |].
  intros [E | [E | [(rest & E) | E]]]; try congruence.
  injection E as E.
  assert (startswith s "audio/" = true)
    by (apply startswith_iff; now exists rest).
  congruence.
Qed.

(** X11. When the synthesis call itself raises an exception that is not
    an [HTTPException], the handler raises an HTTP error with status 500
    and the message "Internal server error: " followed by the text of the
    exception, after all three providers have been called once. *)
Theorem upload_file_synthesis_raises
  (env : Providers) (file : UploadFile) (tr : trace) (t : Transcript)
  (r ty msg : string) :
  reaches_synthesis env file t r ->
  convert env r voice_id model_id output_format = inl (Exception ty msg) ->
  upload_file env file tr
  = (inl (HTTPException 500 ("Internal server error: " ++ msg)),
     tr ++ [Transcribe (contents file) config; Invoke (prompt_of t);
            Convert r voice_id model_id output_format])%list.
Proof.
  intros R C.
  now rewrite (stage_convert_raises env file tr t r (Exception ty msg) R C).
Qed.

Lemma upload_file_synthesis_raises_witness :
  upload_file
    {| transcribe := const_transcribe (transcript_ok (Some "Hello there"));
       llm := Some echo_llm;
       convert := fun _ _ _ _ => inl (Exception "ApiError" "invalid api key") |}
    (audio_upload (Some "audio/webm") (bytes_lit "RIFF")) []
  = (inl (HTTPException 500 ("Internal server error: " ++ "invalid api key")),
     [] ++ [Transcribe (bytes_lit "RIFF") config;
            Invoke (prompt_of (transcript_ok (Some "Hello there")));
            Convert (summarize_instruction ++ "Hello there")
                    voice_id model_id output_format])%list.
Proof.
  apply (upload_file_synthesis_raises _
           (audio_upload (Some "audio/webm") (bytes_lit "RIFF")) []
           (transcript_ok (Some "Hello there"))
           (summarize_instruction ++ "Hello there")
           "ApiError" "invalid api key").
  - repeat split.
    + vm_compute. discriminate.
    + simpl. discriminate.
    + exists echo_llm. split; reflexivity.
  - reflexivity.
Defined.

(** X12. The handler consumes its upload object: once a request whose
    declared content type passes the media-type check has run, the read
    position of its upload is at the end, so a second call of the handler
    on the same object reads no bytes and ends with the empty-payload
    error (400) without calling a provider, whatever the first call
    returned. *)
Theorem upload_file_consumes_upload
  (env : Providers) (r : ref) (w : World) :
  content_type_rejected (o_content_type (w_heap w r)) = false ->
  fst (Object.upload_file env r (snd (Object.upload_file env r w)))
  = inl (HTTPException 400 "Uploaded file is empty")
  /\ w_log (snd (Object.upload_file env r (snd (Object.upload_file env r w))))
     = w_log (snd (Object.upload_file env r w)).
Proof.
  intros H.
  assert (E : w_heap (snd (Object.upload_file env r w)) r = at_end (w_heap w r)).
  { rewrite object_upload_file_view. simpl. rewrite H. apply heap_set_same. }
  rewrite (object_upload_file_view env r (snd (Object.upload_file env r w))).
  simpl. rewrite E.
  rewrite stage_empty.
  - split; reflexivity.
  - exact H.
  - simpl. apply pending_at_end.
Qed.

Lemma upload_file_consumes_upload_witness :
  fst (Object.upload_file demo_env 0 two_uploads)
  = inr (mkStreamingResponse (bytes_lit "AUDIO") "audio/mpeg")
  /\ fst (Object.upload_file demo_env 0
            (snd (Object.upload_file demo_env 0 two_uploads)))
     = inl (HTTPException 400 "Uploaded file is empty")
  /\ w_log (snd (Object.upload_file demo_env 0
                   (snd (Object.upload_file demo_env 0 two_uploads))))
     = w_log (snd (Object.upload_file demo_env 0 two_uploads)).
Proof.
  split; [reflexivity |].
  apply (upload_file_consumes_upload demo_env 0 two_uploads).
  reflexivity.
Defined.
